(** * scrappy.py: a shallow embedding and its verified properties

    The program fetches an article by URL and stores its text in a local
    SQLite table [notes (url TEXT PRIMARY KEY, content TEXT)], asking for
    confirmation before it overwrites an existing entry.

    The embedding follows the source line by line.  What the source gets
    from its environment is explicit state: the on-disk database, the
    SQLite connections of the process, the lines waiting on standard
    input, the answer of the network to a download, and the trace of
    effects performed so far. *)

From Stdlib Require Import List NArith Bool String Ascii Arith Lia.
Import ListNotations.

(** ** Python strings *)

Module PyStr.

(** A Python [str] is a sequence of Unicode code points. *)
Definition str := list N.

(** An ASCII literal of the source, as a [str]. *)
Definition lit (s : string) : str :=
  map N_of_ascii (list_ascii_of_string s).

Fixpoint eqb (s t : str) : bool :=
  match s, t with
  | [], [] => true
  | c :: s', d :: t' => N.eqb c d && eqb s' t'
  | _, _ => false
  end.

Definition is_ascii (c : N) : bool := (c <? 128)%N.

(** [Py_TOLOWER]: A..Z go to a..z, every other byte is kept. *)
Definition ascii_tolower (c : N) : N :=
  if ((65 <=? c) && (c <=? 90))%N then (c + 32)%N else c.

(** [str.lower()].  CPython lowers an all-ASCII string byte by byte and
    hands every other string to the case mapping of the Unicode
    database, which is not part of this repository: it is the
    parameter [unicode_lower]. *)
Definition lower (unicode_lower : str -> str) (s : str) : str :=
  if forallb is_ascii s then map ascii_tolower s else unicode_lower s.

(** [Py_UNICODE_ISSPACE]: the code points [str.strip()] removes. *)
Definition isspace (c : N) : bool :=
  (((9 <=? c) && (c <=? 13)) || ((28 <=? c) && (c <=? 32))
   || (c =? 133) || (c =? 160) || (c =? 5760)
   || ((8192 <=? c) && (c <=? 8202))
   || (c =? 8232) || (c =? 8233) || (c =? 8239) || (c =? 8287)
   || (c =? 12288))%N.

Fixpoint lstrip (s : str) : str :=
  match s with
  | c :: s' => if isspace c then lstrip s' else s
  | [] => []
  end.

Definition rstrip (s : str) : str := rev (lstrip (rev s)).

(** [str.strip()] with no argument. *)
Definition strip (s : str) : str := rstrip (lstrip s).

End PyStr.

Import PyStr.

(** ** The SQLite store *)

(** A row of [notes (url TEXT PRIMARY KEY, content TEXT)]. *)
Record Note := mkNote { url : str; content : str }.

(** The rows of the table, oldest first.  Nothing in the type keeps two
    rows from having one url: that is the invariant [store_ok] below. *)
Definition Table := list Note.

(** What is found at [~/.scrappy/scrappy_notes.db]. *)
Inductive Disk :=
| NoDir                      (* ~/.scrappy does not exist *)
| NoFile                     (* the directory exists, the file does not *)
| NoTable                    (* a database file without a table notes *)
| Notes (rows : Table).      (* a database file with the table notes *)

Definition notes_table (d : Disk) : option Table :=
  match d with
  | Notes rows => Some rows
  | _ => None
  end.

(** The Notes collection a disk holds: none where there is no table. *)
Definition notes_of (d : Disk) : Table :=
  match notes_table d with
  | Some rows => rows
  | None => []
  end.

Definition url_is (u : str) (r : Note) : bool := eqb (url r) u.

(** [SELECT COUNT( * ) FROM notes WHERE url = ?] *)
Definition count_where_url (u : str) (t : Table) : nat :=
  List.length (filter (url_is u) t).

(** [INSERT OR REPLACE INTO notes (url, content) VALUES (?, ?)]: the rows
    in conflict on the primary key are deleted, then the row is added. *)
Definition insert_or_replace (u c : str) (t : Table) : Table :=
  filter (fun r => negb (url_is u r)) t ++ [mkNote u c].

(** The rows of a url, in table order. *)
Definition notes_for (u : str) (t : Table) : Table := filter (url_is u) t.

(** At most one Note per url. *)
Definition store_ok (d : Disk) : Prop := NoDup (map url (notes_of d)).

(** ** Connections, exceptions, effects *)

(** Connections and their cursors are named by their position in the
    list of connections the process has opened. *)
Definition handle := nat.

(** A [sqlite3.Connection]: [txn] is the working copy of the table while
    a transaction is open (an INSERT opens one; [commit] ends it). *)
Record Connection := mkConnection { closed : bool; txn : option Table }.

Inductive Exn :=
| EOFError                   (* input() at end of file *)
| ProgrammingError           (* sqlite3: use of a closed connection *)
| OperationalError           (* sqlite3: no such file or table *)
| ArticleException (detail : str).   (* download or parse failed *)

Inductive Event :=
| Makedirs                           (* os.makedirs(dir, exist_ok=True) *)
| Connect (h : handle)               (* sqlite3.connect(db_path) *)
| CreateTable (h : handle)           (* CREATE TABLE IF NOT EXISTS notes *)
| SelectCount (h : handle) (u : str)
| InsertOrReplace (h : handle) (u c : str)
| Commit (h : handle)
| Close (h : handle)
| Input (prompt : str)               (* the prompt input() writes *)
| Print (msg : str)
| Download (u : str).                (* Article(url).download() *)

Record World := mkWorld {
  disk : Disk;                       (* the committed database *)
  conns : list Connection;           (* connections opened so far *)
  stdin : list str;                  (* lines not yet read *)
  web : str -> Exn + str;            (* what downloading a url gives *)
  trace : list Event                 (* effects so far, oldest first *)
}.

Definition set_disk (d : Disk) (w : World) : World :=
  mkWorld d (conns w) (stdin w) (web w) (trace w).
Definition set_conns (cs : list Connection) (w : World) : World :=
  mkWorld (disk w) cs (stdin w) (web w) (trace w).
Definition set_stdin (l : list str) (w : World) : World :=
  mkWorld (disk w) (conns w) l (web w) (trace w).

(** A computation runs in a world and returns or raises; the world an
    exception leaves behind is kept, as in the source. *)
Definition M (A : Type) : Type := World -> (Exn + A) * World.

Definition ret {A} (a : A) : M A := fun w => (inr a, w).
Definition raise {A} (e : Exn) : M A := fun w => (inl e, w).
Definition bind {A B} (m : M A) (k : A -> M B) : M B :=
  fun w =>
    match m w with
    | (inl e, w') => (inl e, w')
    | (inr a, w') => k a w'
    end.

Declare Scope py_scope.
Delimit Scope py_scope with py.
Notation "x <- m ;; k" := (bind m (fun x => k))
  (at level 100, m at next level, right associativity) : py_scope.
Notation "m ;; k" := (bind m (fun _ => k))
  (at level 100, right associativity) : py_scope.
Open Scope py_scope.

Definition emit (e : Event) : M unit :=
  fun w => (inr tt, mkWorld (disk w) (conns w) (stdin w) (web w)
                            (trace w ++ [e])).

Definition get_disk : M Disk := fun w => (inr (disk w), w).
Definition put_disk (d : Disk) : M unit := fun w => (inr tt, set_disk d w).

(** The connection behind an open handle. *)
Definition open_conn (h : handle) : M Connection :=
  fun w =>
    match nth_error (conns w) h with
    | Some c => if closed c then (inl ProgrammingError, w) else (inr c, w)
    | None => (inl ProgrammingError, w)
    end.

Fixpoint update_nth {A} (n : nat) (f : A -> A) (l : list A) : list A :=
  match l, n with
  | [], _ => []
  | x :: l', O => f x :: l'
  | x :: l', S n' => x :: update_nth n' f l'
  end.

Definition update_conn (h : handle) (f : Connection -> Connection) : M unit :=
  fun w => (inr tt, set_conns (update_nth h f (conns w)) w).

(** What a connection reads: its open transaction, else the disk. *)
Definition table_seen (c : Connection) : M Table :=
  match txn c with
  | Some t => ret t
  | None =>
      d <- get_disk ;;
      match notes_table d with
      | Some t => ret t
      | None => raise OperationalError
      end
  end.

(** ** The library calls the source makes *)

(** [os.makedirs(os.path.dirname(db_path), exist_ok=True)].  The failures
    of the file system (a directory that cannot be created) are outside
    this model, as are those of SQLite on a file that is not a database
    of this program. *)
Definition os_makedirs : M unit :=
  emit Makedirs ;;
  d <- get_disk ;;
  match d with
  | NoDir => put_disk NoFile
  | _ => ret tt
  end.

(** [sqlite3.connect(db_path)]: a missing file is created; the new
    connection gets the next free handle. *)
Definition sqlite3_connect : M handle :=
  fun w =>
    let h := List.length (conns w) in
    (emit (Connect h) ;;
     d <- get_disk ;;
     match d with
     | NoDir => raise OperationalError
     | NoFile => put_disk NoTable
     | _ => ret tt
     end ;;
     (fun w' => (inr h, set_conns (conns w' ++ [mkConnection false None]) w'))) w.

(** [conn.cursor()]: a cursor works on its connection. *)
Definition conn_cursor (conn : handle) : M handle :=
  open_conn conn ;; ret conn.

(** [cursor.execute("CREATE TABLE IF NOT EXISTS notes (...)")]: data
    definition is not wrapped in a transaction and reaches the disk. *)
Definition execute_create_table (cursor : handle) : M unit :=
  emit (CreateTable cursor) ;;
  c <- open_conn cursor ;;
  match txn c with
  | Some _ => ret tt
  | None =>
      d <- get_disk ;;
      match d with
      | NoTable => put_disk (Notes [])
      | Notes _ => ret tt
      | _ => raise OperationalError
      end
  end.

(** [conn.commit()] *)
Definition conn_commit (conn : handle) : M unit :=
  emit (Commit conn) ;;
  c <- open_conn conn ;;
  match txn c with
  | Some t =>
      put_disk (Notes t) ;;
      update_conn conn (fun c => mkConnection (closed c) None)
  | None => ret tt
  end.

(** [cursor.execute("SELECT COUNT( * ) FROM notes WHERE url = ?", (url,))]
    followed by [cursor.fetchone()[0]]. *)
Definition execute_select_count (cursor : handle) (u : str) : M nat :=
  emit (SelectCount cursor u) ;;
  c <- open_conn cursor ;;
  t <- table_seen c ;;
  ret (count_where_url u t).

(** [cursor.execute("INSERT OR REPLACE INTO notes ...", (url, content))]:
    the write stays in the connection's transaction until the commit. *)
Definition execute_insert_or_replace (cursor : handle) (u c : str) : M unit :=
  emit (InsertOrReplace cursor u c) ;;
  cn <- open_conn cursor ;;
  t <- table_seen cn ;;
  update_conn cursor
    (fun cn => mkConnection (closed cn) (Some (insert_or_replace u c t))).

(** [conn.close()]: an open transaction is dropped. *)
Definition conn_close (conn : handle) : M unit :=
  emit (Close conn) ;;
  update_conn conn (fun _ => mkConnection true None).

(** [input(prompt)]: writes the prompt, reads one line without its
    newline, raises [EOFError] when there is none. *)
Definition input (prompt : str) : M str :=
  emit (Input prompt) ;;
  (fun w =>
     match stdin w with
     | line :: rest => (inr line, set_stdin rest w)
     | [] => (inl EOFError, w)
     end).

Definition print (msg : str) : M unit := emit (Print msg).

(** ** The program *)

Definition setup_database : M (handle * handle) :=
  os_makedirs ;;
  conn <- sqlite3_connect ;;
  cursor <- conn_cursor conn ;;
  execute_create_table cursor ;;
  conn_commit conn ;;
  ret (conn, cursor).

(** [Article(url)], [download()], [parse()], [article.text]: the text the
    web gives for the url, or the exception the library raises. *)
Definition extract_article_content (url : str) : M str :=
  emit (Download url) ;;
  (fun w => (web w url, w)).

Definition overwrite_prompt : str :=
  lit "An entry for this URL already exists. Do you want to overwrite it? (y/n): ".

Section Scrape.

(** The case mapping of the Unicode database, used by [str.lower()] on
    strings that are not all ASCII. *)
Variable unicode_lower : str -> str.

(** [input(...).lower().strip()] *)
Definition normalize (response : str) : str :=
  strip (lower unicode_lower response).

(** Lines 55 to 64 of [scrape], reached when line 53 does not return. *)
Definition scrape_save (conn cursor : handle) (url : str) : M unit :=
  content <- extract_article_content url ;;
  execute_insert_or_replace cursor url content ;;
  conn_commit conn ;;
  conn_close conn ;;
  print (lit "Content saved successfully.").

Definition scrape (url : str) : M unit :=
  cc <- setup_database ;;
  let (conn, cursor) := cc in
  count <- execute_select_count cursor url ;;
  if 0 <? count then
    response <- input overwrite_prompt ;;
    let response := normalize response in
    if negb (eqb response (lit "y")) then
      print (lit "Operation cancelled.") ;;
      conn_close conn
    else scrape_save conn cursor url
  else scrape_save conn cursor url.

(** The existence check of lines 36 to 40, as a later run makes it. *)
Definition existence_check (url : str) : M bool :=
  cc <- setup_database ;;
  count <- execute_select_count (snd cc) url ;;
  ret (0 <? count).

End Scrape.

(** ** Observations the properties are stated with *)

(** The effects a computation adds to the trace of the world it runs in. *)
Definition events_of {A} (m : M A) (w : World) : list Event :=
  skipn (List.length (trace w)) (trace (snd (m w))).

Definition is_write (e : Event) : bool :=
  match e with
  | InsertOrReplace _ _ _ => true
  | _ => false
  end.

Definition is_download (e : Event) : bool :=
  match e with
  | Download _ => true
  | _ => false
  end.

(** The connection behind a handle has been closed. *)
Definition is_closed (h : handle) (w : World) : bool :=
  match nth_error (conns w) h with
  | Some c => closed c
  | None => false
  end.

(** A run that ends the way lines 50 to 53 end it: it returns, the
    committed database is the one it started with, the cancellation
    message is printed, the connection it opened is closed, and there
    was no write and no download. *)
Definition cancels (m : M unit) (w : World) : Prop :=
  fst (m w) = inr tt /\
  disk (snd (m w)) = disk w /\
  In (Print (lit "Operation cancelled.")) (events_of m w) /\
  is_closed (List.length (conns w)) (snd (m w)) = true /\
  existsb is_write (events_of m w) = false /\
  existsb is_download (events_of m w) = false.

(** A run leaves the connection it opened closed. *)
Definition closes_its_connection {A} (m : M A) (w : World) : Prop :=
  is_closed (List.length (conns w)) (snd (m w)) = true.

(** The effects of lines 36 to 40 on connection [h]. *)
Definition check_events (h : handle) (u : str) : list Event :=
  [Makedirs; Connect h; CreateTable h; Commit h; SelectCount h u].

(** The effects of the declined path after the check. *)
Definition cancel_events (h : handle) : list Event :=
  [Input overwrite_prompt; Print (lit "Operation cancelled."); Close h].

(** The effects of lines 55 to 64 when the download gives [c]. *)
Definition save_events (h : handle) (u c : str) : list Event :=
  [Download u; InsertOrReplace h u c; Commit h; Close h;
   Print (lit "Content saved successfully.")].

(** The messages a run prints, the prompts it shows and the urls it
    downloads, each in order. *)
Definition printed (evs : list Event) : list str :=
  flat_map (fun e => match e with Print m => [m] | _ => [] end) evs.

Definition prompts (evs : list Event) : list str :=
  flat_map (fun e => match e with Input p => [p] | _ => [] end) evs.

Definition downloads (evs : list Event) : list str :=
  flat_map (fun e => match e with Download u => [u] | _ => [] end) evs.

(** ** Concrete worlds *)

(** A case mapping for runs whose strings are all ASCII. *)
Definition no_case_mapping (s : str) : str := s.

Definition example_url : str := lit "http://example.com/a".
Definition other_url : str := lit "http://example.com/b".

(** A machine on which the program never ran, and a web that answers
    every download with [answer]. *)
Definition fresh_world (answer : Exn + str) : World :=
  mkWorld NoDir [] [] (fun _ => answer) [].

(** A database holding "Old text" for [example_url] and "Other text" for
    [other_url], and the lines the user is going to type. *)
Definition stored_world (lines : list str) (answer : Exn + str) : World :=
  mkWorld (Notes [mkNote example_url (lit "Old text");
                  mkNote other_url (lit "Other text")])
          [] lines (fun _ => answer) [].

Definition fetch_error : Exn := ArticleException (lit "unreachable").

(** ** Lists and tables *)

Lemma nth_error_snoc {A} (l : list A) (x : A) :
  nth_error (l ++ [x]) (List.length l) = Some x.
Proof. induction l as [|y l IH]; simpl; auto. Qed.

Lemma update_nth_snoc {A} (f : A -> A) (l : list A) (x : A) :
  update_nth (List.length l) f (l ++ [x]) = l ++ [f x].
Proof. induction l as [|y l IH]; simpl; [reflexivity | now rewrite IH]. Qed.

Lemma skipn_length_app {A} (l l' : list A) :
  skipn (List.length l) (l ++ l') = l'.
Proof. induction l as [|y l IH]; simpl; auto. Qed.

Lemma eqb_eq (s t : str) : eqb s t = true <-> s = t.
Proof.
  revert t; induction s as [|c s IH]; intros [|d t]; simpl;
    try (split; [discriminate | congruence]); try tauto.
  rewrite andb_true_iff, N.eqb_eq, IH.
  split; [intros [-> ->]; reflexivity | intros E; injection E; auto].
Qed.

Lemma eqb_refl (s : str) : eqb s s = true.
Proof. apply eqb_eq; reflexivity. Qed.

Lemma eqb_neq (s t : str) : eqb s t = false <-> s <> t.
Proof. rewrite <- eqb_eq. destruct (eqb s t); split; congruence. Qed.

Lemma url_is_true (u : str) (r : Note) : url_is u r = true <-> url r = u.
Proof. apply eqb_eq. Qed.

(** Without a row for [u], the replace step deletes nothing. *)
Lemma absent_keeps_rows (u : str) (t : Table) :
  count_where_url u t = 0 -> filter (fun r => negb (url_is u r)) t = t.
Proof.
  unfold count_where_url.
  induction t as [|r t IH]; simpl; [reflexivity|].
  destruct (url_is u r); simpl; [discriminate|].
  intros H; now rewrite IH.
Qed.

Lemma notes_for_others_gone (u : str) (t : Table) :
  notes_for u (filter (fun r => negb (url_is u r)) t) = [].
Proof.
  unfold notes_for.
  induction t as [|r t IH]; simpl; [reflexivity|].
  destruct (url_is u r) eqn:E; simpl; [assumption|].
  now rewrite E.
Qed.

(** After the write, the url has the new row and no other. *)
Lemma notes_for_written (u c : str) (t : Table) :
  notes_for u (insert_or_replace u c t) = [mkNote u c].
Proof.
  unfold insert_or_replace, notes_for.
  rewrite filter_app.
  change (filter (url_is u) (filter (fun r => negb (url_is u r)) t))
    with (notes_for u (filter (fun r => negb (url_is u r)) t)).
  rewrite notes_for_others_gone. simpl.
  unfold url_is at 1; simpl. now rewrite eqb_refl.
Qed.

(** The rows of every other url are the ones that were there. *)
Lemma notes_for_other (u u' c : str) (t : Table) :
  u' <> u -> notes_for u' (insert_or_replace u c t) = notes_for u' t.
Proof.
  intros Hne. unfold insert_or_replace, notes_for.
  rewrite filter_app. simpl.
  assert (E : url_is u' (mkNote u c) = false).
  { unfold url_is; simpl. apply eqb_neq. congruence. }
  rewrite E, app_nil_r.
  induction t as [|r t IH]; simpl; [reflexivity|].
  destruct (url_is u r) eqn:Eu; simpl.
  - apply url_is_true in Eu.
    assert (E' : url_is u' r = false).
    { unfold url_is. apply eqb_neq. congruence. }
    now rewrite E'.
  - destruct (url_is u' r); [now rewrite IH | assumption].
Qed.

Lemma insert_or_replace_twice (u c c' : str) (t : Table) :
  insert_or_replace u c (insert_or_replace u c' t) = insert_or_replace u c t.
Proof.
  unfold insert_or_replace. rewrite filter_app. simpl.
  replace (url_is u (mkNote u c')) with true
    by (symmetry; apply url_is_true; reflexivity).
  simpl. rewrite app_nil_r. f_equal.
  induction t as [|r t IH]; simpl; [reflexivity|].
  destruct (url_is u r) eqn:E; simpl; [assumption|].
  rewrite E. simpl. now rewrite IH.
Qed.

Lemma keys_after_delete (u : str) (t : Table) :
  NoDup (map url t) ->
  NoDup (map url (filter (fun r => negb (url_is u r)) t)) /\
  ~ In u (map url (filter (fun r => negb (url_is u r)) t)) /\
  (forall k, In k (map url (filter (fun r => negb (url_is u r)) t)) ->
             In k (map url t)).
Proof.
  induction t as [|r t IH]; simpl.
  - intros _. repeat split; [constructor | tauto | tauto].
  - intros H. inversion H as [|k ks Hnin Hnd]; subst.
    destruct (IH Hnd) as (IH1 & IH2 & IH3).
    destruct (url_is u r) eqn:E; simpl.
    + repeat split; auto.
    + repeat split.
      * constructor; auto.
      * intros [Hk | Hk]; [|tauto].
        apply eqb_neq in E. congruence.
      * intros k [Hk | Hk]; auto.
Qed.

Lemma NoDup_snoc {A} (l : list A) (x : A) :
  NoDup l -> ~ In x l -> NoDup (l ++ [x]).
Proof.
  induction l as [|y l IH]; simpl; intros Hnd Hnin.
  - constructor; [tauto | constructor].
  - inversion Hnd as [|k ks Hy Hl]; subst.
    constructor.
    + rewrite in_app_iff. simpl. intros [H | [H | []]]; [tauto|].
      apply Hnin. now left.
    + apply IH; tauto.
Qed.

(** The replace step keeps the urls of the table distinct. *)
Lemma insert_or_replace_keys (u c : str) (t : Table) :
  NoDup (map url t) -> NoDup (map url (insert_or_replace u c t)).
Proof.
  intros H. destruct (keys_after_delete u t H) as (H1 & H2 & _).
  unfold insert_or_replace. rewrite map_app. simpl.
  now apply NoDup_snoc.
Qed.

Lemma count_split (u : str) (t : Table) :
  count_where_url u t
  + List.length (filter (fun r => negb (url_is u r)) t) = List.length t.
Proof.
  unfold count_where_url.
  induction t as [|r t IH]; simpl; [reflexivity|].
  destruct (url_is u r); simpl; lia.
Qed.

Lemma count_le_one (u : str) (t : Table) :
  NoDup (map url t) -> count_where_url u t <= 1.
Proof.
  unfold count_where_url.
  induction t as [|r t IH]; simpl; [lia|].
  intros H. inversion H as [|k ks Hnin Hnd]; subst.
  destruct (url_is u r) eqn:E; simpl; [|auto].
  apply url_is_true in E.
  assert (Z : filter (url_is u) t = []).
  { clear - Hnin E. induction t as [|r' t IH]; simpl; [reflexivity|].
    destruct (url_is u r') eqn:E'.
    - apply url_is_true in E'. exfalso. apply Hnin. simpl. left. congruence.
    - apply IH. intros Hin. apply Hnin. simpl. now right. }
  rewrite Z. simpl. lia.
Qed.

(** With distinct urls, replacing a present row keeps the row count. *)
Lemma insert_or_replace_length (u c : str) (t : Table) :
  NoDup (map url t) -> 0 < count_where_url u t ->
  List.length (insert_or_replace u c t) = List.length t.
Proof.
  intros Hnd Hpos.
  pose proof (count_le_one u t Hnd). pose proof (count_split u t).
  unfold insert_or_replace. rewrite length_app. simpl. lia.
Qed.

(** ** What the program does, path by path *)

Ltac run :=
  cbv [setup_database os_makedirs sqlite3_connect conn_cursor
       execute_create_table conn_commit execute_select_count
       execute_insert_or_replace conn_close input print
       extract_article_content emit get_disk put_disk open_conn update_conn
       table_seen bind ret raise set_disk set_conns set_stdin
       disk conns stdin web trace closed txn notes_table notes_of];
  repeat (rewrite ?nth_error_snoc, ?update_nth_snoc;
          cbv beta iota delta [closed txn fst snd]);
  rewrite <- ?app_assoc; cbn [app].

(** The initializer always returns, with one new open connection, and
    leaves a database whose table holds the Notes that were there. *)
Lemma setup_database_run (w : World) :
  let h := List.length (conns w) in
  setup_database w =
    (inr (h, h),
     mkWorld (Notes (notes_of (disk w)))
             (conns w ++ [mkConnection false None]) (stdin w) (web w)
             (trace w ++ [Makedirs; Connect h; CreateTable h; Commit h])).
Proof.
  destruct w as [d cs i wb tr]; destruct d; run; reflexivity.
Qed.

Lemma existence_check_run (u : str) (w : World) :
  fst (existence_check u w)
  = inr (0 <? count_where_url u (notes_of (disk w))).
Proof.
  unfold existence_check, bind at 1. rewrite setup_database_run.
  destruct w as [d cs i wb tr]. run. reflexivity.
Qed.

Section Behaviour.

Variable unicode_lower : str -> str.

(** Lines 55 to 64 on a fresh connection [h] to a database with a
    table: either the download raises and nothing else happens, or the
    row is written, committed, and the connection closed. *)
Lemma scrape_save_run (rows : Table) (cs : list Connection)
    (i : list str) (wb : str -> Exn + str) (tr : list Event) (u : str) :
  let h := List.length cs in
  scrape_save h h u
    (mkWorld (Notes rows) (cs ++ [mkConnection false None]) i wb tr) =
  match wb u with
  | inl e =>
      (inl e, mkWorld (Notes rows) (cs ++ [mkConnection false None]) i wb
                      (tr ++ [Download u]))
  | inr c =>
      (inr tt, mkWorld (Notes (insert_or_replace u c rows))
                       (cs ++ [mkConnection true None]) i wb
                       (tr ++ save_events h u c))
  end.
Proof.
  unfold scrape_save, save_events. run.
  destruct (wb u) as [e | c]; run; reflexivity.
Qed.

(** [scrape] as a case analysis over the count, the line read and the
    normalized response. *)
Lemma scrape_unfold (u : str) (w : World) :
  let h := List.length (conns w) in
  let rows := notes_of (disk w) in
  let tr := trace w ++ check_events h u in
  scrape unicode_lower u w =
  if 0 <? count_where_url u rows then
    match stdin w with
    | [] =>
        (inl EOFError,
         mkWorld (Notes rows) (conns w ++ [mkConnection false None]) []
                 (web w) (tr ++ [Input overwrite_prompt]))
    | r :: rest =>
        if eqb (normalize unicode_lower r) (lit "y") then
          scrape_save h h u
            (mkWorld (Notes rows) (conns w ++ [mkConnection false None])
                     rest (web w) (tr ++ [Input overwrite_prompt]))
        else
          (inr tt,
           mkWorld (Notes rows) (conns w ++ [mkConnection true None])
                   rest (web w) (tr ++ cancel_events h))
    end
  else
    scrape_save h h u
      (mkWorld (Notes rows) (conns w ++ [mkConnection false None])
               (stdin w) (web w) tr).
Proof.
  unfold scrape, bind at 1. rewrite setup_database_run.
  destruct w as [d cs i wb tr0].
  unfold check_events, cancel_events.
  cbv [bind execute_select_count emit open_conn table_seen get_disk ret
       disk conns stdin web trace notes_table].
  rewrite nth_error_snoc.
  cbv beta iota delta [closed txn notes_table].
  destruct (0 <? count_where_url u (notes_of d)).
  - cbv [input bind emit disk conns stdin web trace set_stdin].
    destruct i as [|r rest]; [rewrite <- ?app_assoc; reflexivity|].
    destruct (eqb (normalize unicode_lower r) (lit "y")); cbn [negb].
    + rewrite <- ?app_assoc; reflexivity.
    + run. reflexivity.
  - rewrite <- ?app_assoc; reflexivity.
Qed.


(** The declined path: a Note exists and the normalized line is not "y". *)
Lemma scrape_declined (u : str) (w : World) (r : str) (rest : list str) :
  0 < count_where_url u (notes_of (disk w)) ->
  stdin w = r :: rest ->
  normalize unicode_lower r <> lit "y" ->
  let h := List.length (conns w) in
  scrape unicode_lower u w =
    (inr tt,
     mkWorld (Notes (notes_of (disk w)))
             (conns w ++ [mkConnection true None]) rest (web w)
             (trace w ++ check_events h u ++ cancel_events h)).
Proof.
  intros Hc Hi Hn. cbv zeta. rewrite scrape_unfold. cbv zeta.
  apply Nat.ltb_lt in Hc. rewrite Hc, Hi.
  apply eqb_neq in Hn. rewrite Hn.
  now rewrite <- app_assoc.
Qed.

(** The confirmed path: a Note exists and the normalized line is "y". *)
Lemma scrape_confirmed (u : str) (w : World) (r : str) (rest : list str) :
  0 < count_where_url u (notes_of (disk w)) ->
  stdin w = r :: rest ->
  normalize unicode_lower r = lit "y" ->
  let h := List.length (conns w) in
  let pre := check_events h u ++ [Input overwrite_prompt] in
  scrape unicode_lower u w =
    match web w u with
    | inl e =>
        (inl e,
         mkWorld (Notes (notes_of (disk w)))
                 (conns w ++ [mkConnection false None]) rest (web w)
                 (trace w ++ pre ++ [Download u]))
    | inr c =>
        (inr tt,
         mkWorld (Notes (insert_or_replace u c (notes_of (disk w))))
                 (conns w ++ [mkConnection true None]) rest (web w)
                 (trace w ++ pre ++ save_events h u c))
    end.
Proof.
  intros Hc Hi Hn. cbv zeta. rewrite scrape_unfold. cbv zeta.
  apply Nat.ltb_lt in Hc. rewrite Hc, Hi.
  apply eqb_eq in Hn. rewrite Hn.
  rewrite scrape_save_run. cbv zeta.
  destruct (web w u); now rewrite <- !app_assoc.
Qed.

(** The fresh path: no Note for the url, no prompt. *)
Lemma scrape_fresh (u : str) (w : World) :
  count_where_url u (notes_of (disk w)) = 0 ->
  let h := List.length (conns w) in
  scrape unicode_lower u w =
    match web w u with
    | inl e =>
        (inl e,
         mkWorld (Notes (notes_of (disk w)))
                 (conns w ++ [mkConnection false None]) (stdin w) (web w)
                 (trace w ++ check_events h u ++ [Download u]))
    | inr c =>
        (inr tt,
         mkWorld (Notes (insert_or_replace u c (notes_of (disk w))))
                 (conns w ++ [mkConnection true None]) (stdin w) (web w)
                 (trace w ++ check_events h u ++ save_events h u c))
    end.
Proof.
  intros Hc. cbv zeta. rewrite scrape_unfold. cbv zeta.
  rewrite Hc. cbn [Nat.ltb Nat.leb].
  rewrite scrape_save_run. cbv zeta.
  destruct (web w u); now rewrite <- !app_assoc.
Qed.

(** The prompt at end of input: [input] raises and nothing follows. *)
Lemma scrape_eof (u : str) (w : World) :
  0 < count_where_url u (notes_of (disk w)) ->
  stdin w = [] ->
  let h := List.length (conns w) in
  scrape unicode_lower u w =
    (inl EOFError,
     mkWorld (Notes (notes_of (disk w)))
             (conns w ++ [mkConnection false None]) [] (web w)
             (trace w ++ check_events h u ++ [Input overwrite_prompt])).
Proof.
  intros Hc Hi. cbv zeta. rewrite scrape_unfold. cbv zeta.
  apply Nat.ltb_lt in Hc. rewrite Hc, Hi.
  now rewrite <- app_assoc.
Qed.

(** A table with a row for a url is a table on disk. *)
Lemma stored_on_disk (u : str) (d : Disk) :
  0 < count_where_url u (notes_of d) -> d = Notes (notes_of d).
Proof.
  destruct d; cbn; intros H; solve [lia | reflexivity].
Qed.

Lemma events_of_app {A} (m : M A) (w : World) (evs : list Event) :
  trace (snd (m w)) = trace w ++ evs -> events_of m w = evs.
Proof. unfold events_of. intros ->. apply skipn_length_app. Qed.

Lemma is_closed_new (w : World) (cs : list Connection) (c : Connection) :
  conns w = cs ++ [c] -> is_closed (List.length cs) w = closed c.
Proof. unfold is_closed. intros ->. now rewrite nth_error_snoc. Qed.

(** The declined path is a cancellation. *)
Lemma declined_cancels (u : str) (w : World) (r : str) (rest : list str) :
  0 < count_where_url u (notes_of (disk w)) ->
  stdin w = r :: rest ->
  normalize unicode_lower r <> lit "y" ->
  cancels (scrape unicode_lower u) w.
Proof.
  intros Hc Hi Hn.
  pose proof (scrape_declined u w r rest Hc Hi Hn) as E. cbv zeta in E.
  assert (Ev : events_of (scrape unicode_lower u) w
               = check_events (List.length (conns w)) u
                 ++ cancel_events (List.length (conns w))).
  { apply events_of_app. now rewrite E. }
  unfold cancels. rewrite Ev, E. cbn [fst snd disk].
  repeat split.
  - symmetry. now apply stored_on_disk with (u := u).
  - simpl. tauto.
  - now apply is_closed_new with (c := mkConnection true None).
Qed.
Ltac by_path u w :=
  let Hz := fresh "Hz" in
  let Hpos := fresh "Hpos" in
  let Hi := fresh "Hi" in
  let Hn := fresh "Hn" in
  let r := fresh "r" in
  let rest := fresh "rest" in
  destruct (Nat.eq_dec (count_where_url u (notes_of (disk w))) 0)
    as [Hz | Hpos];
  [ rewrite ?(scrape_fresh u w Hz)
  | apply Nat.neq_0_lt_0 in Hpos;
    destruct (stdin w) as [|r rest] eqn:Hi;
    [ rewrite ?(scrape_eof u w Hpos Hi)
    | destruct (eqb (normalize unicode_lower r) (lit "y")) eqn:Hn;
      [ apply eqb_eq in Hn; rewrite ?(scrape_confirmed u w r rest Hpos Hi Hn)
      | apply eqb_neq in Hn; rewrite ?(scrape_declined u w r rest Hpos Hi Hn) ] ] ].

(** ** The properties *)

(** C1.  For a url that is already stored, scrape goes on to the download
    and the write exactly when the line read, lower-cased and stripped, is
    "y" (so "Y" goes on): then, with the extractor returning [c], the row
    of the url is replaced by [c]; on any other line the run is a
    cancellation, with the database as it was and no write. *)
Theorem C1_overwrite_iff_confirmed
    (u : str) (w : World) (r : str) (rest : list str) :
  0 < count_where_url u (notes_of (disk w)) ->
  stdin w = r :: rest ->
  let run := scrape unicode_lower u in
  (existsb is_download (events_of run w) = true
   <-> normalize unicode_lower r = lit "y") /\
  (forall c, web w u = inr c ->
     (existsb is_write (events_of run w) = true
      <-> normalize unicode_lower r = lit "y")) /\
  (normalize unicode_lower r = lit "y" ->
   forall c, web w u = inr c ->
     fst (run w) = inr tt /\
     disk (snd (run w))
       = Notes (insert_or_replace u c (notes_of (disk w))) /\
     notes_for u (notes_of (disk (snd (run w)))) = [mkNote u c]) /\
  (normalize unicode_lower r <> lit "y" -> cancels run w) /\
  (r = lit "Y" -> normalize unicode_lower r = lit "y").
Proof.
  intros Hc Hi run.
  assert (Hdecl : normalize unicode_lower r <> lit "y" -> cancels run w).
  { intros Hn. now apply declined_cancels with (r := r) (rest := rest). }
  assert (Hconf : normalize unicode_lower r = lit "y" ->
                  existsb is_download (events_of run w) = true /\
                  forall c, web w u = inr c ->
                    existsb is_write (events_of run w) = true /\
                    fst (run w) = inr tt /\
                    disk (snd (run w))
                      = Notes (insert_or_replace u c (notes_of (disk w)))).
  { intros Hn. unfold events_of, run.
    rewrite (scrape_confirmed u w r rest Hc Hi Hn).
    destruct (web w u) as [e | c0]; cbn [fst snd trace disk];
      rewrite skipn_length_app; (split; [reflexivity|]);
      intros c E; inversion E; subst. repeat split. }
  assert (Hdec : normalize unicode_lower r = lit "y"
                 \/ normalize unicode_lower r <> lit "y").
  { destruct (eqb (normalize unicode_lower r) (lit "y")) eqn:Hy;
      [left; now apply eqb_eq | right; now apply eqb_neq]. }
  split; [|split; [|split; [|split]]].
  - split; [|apply Hconf].
    intros Hd. destruct Hdec as [Hy | Hy]; [assumption|].
    destruct (Hdecl Hy) as (_ & _ & _ & _ & _ & Hnd). congruence.
  - intros c Hweb. split.
    + intros Hd. destruct Hdec as [Hy | Hy]; [assumption|].
      destruct (Hdecl Hy) as (_ & _ & _ & _ & Hnw & _). congruence.
    + intros Hy. now apply (proj2 (Hconf Hy) c).
  - intros Hy c Hweb. destruct (proj2 (Hconf Hy) c Hweb) as (_ & Hr & Hd).
    repeat split; [assumption | assumption |].
    rewrite Hd. apply notes_for_written.
  - exact Hdecl.
  - intros ->. reflexivity.
Qed.

(** C2.  When the extractor raises for the url, the Notes of the database
    after scrape are the Notes before it (so the Note of the url, if any,
    is the same), the database on disk is the one the initializer leaves,
    and no write is executed; and if the extractor was called, scrape
    raises the extractor's exception with the download as its last
    effect. *)
Theorem C2_failed_extraction_keeps_notes (u : str) (w : World) (e : Exn) :
  web w u = inl e ->
  let run := scrape unicode_lower u in
  notes_of (disk (snd (run w))) = notes_of (disk w) /\
  notes_for u (notes_of (disk (snd (run w)))) = notes_for u (notes_of (disk w)) /\
  disk (snd (run w)) = disk (snd (setup_database w)) /\
  existsb is_write (events_of run w) = false /\
  (existsb is_download (events_of run w) = true ->
   fst (run w) = inl e /\
   last (events_of run w) Makedirs = Download u).
Proof.
  intros Hweb run. unfold events_of, run.
  rewrite setup_database_run.
  by_path u w; rewrite ?Hweb; cbn [fst snd disk trace notes_of notes_table];
    rewrite skipn_length_app; repeat split; try reflexivity;
    cbn; intros; discriminate.
Qed.

(** C3.  For a url with no Note, when the extractor returns [c], scrape
    returns, the table is the old one followed by the one row [(u, c)],
    which is the only row of the url, the effects end with the message
    "Content saved successfully.", and the existence check of a later run
    finds the url. *)
Theorem C3_fresh_url_is_stored (u : str) (w : World) (c : str) :
  count_where_url u (notes_of (disk w)) = 0 ->
  web w u = inr c ->
  let run := scrape unicode_lower u in
  let h := List.length (conns w) in
  fst (run w) = inr tt /\
  disk (snd (run w)) = Notes (notes_of (disk w) ++ [mkNote u c]) /\
  notes_for u (notes_of (disk (snd (run w)))) = [mkNote u c] /\
  events_of run w = check_events h u ++ save_events h u c /\
  last (events_of run w) Makedirs
    = Print (lit "Content saved successfully.") /\
  fst (existence_check u (snd (run w))) = inr true.
Proof.
  intros Hz Hweb run h.
  assert (E : run w =
    (inr tt,
     mkWorld (Notes (notes_of (disk w) ++ [mkNote u c]))
             (conns w ++ [mkConnection true None]) (stdin w) (web w)
             (trace w ++ check_events h u ++ save_events h u c))).
  { unfold run. rewrite (scrape_fresh u w Hz), Hweb.
    unfold insert_or_replace. now rewrite absent_keeps_rows. }
  assert (Ev : events_of run w = check_events h u ++ save_events h u c).
  { apply events_of_app. now rewrite E. }
  assert (N : notes_for u (notes_of (disk w) ++ [mkNote u c]) = [mkNote u c]).
  { rewrite <- (absent_keeps_rows u (notes_of (disk w)) Hz) at 1.
    apply notes_for_written. }
  rewrite existence_check_run, Ev, E. cbn [fst snd disk notes_of notes_table].
  repeat split; try assumption; try reflexivity.
  unfold count_where_url. fold (notes_for u (notes_of (disk w) ++ [mkNote u c])).
  now rewrite N.
Qed.

(** C4 (amended).  When a Note for the url exists, every line whose
    lower-cased, stripped form is not "y" (the empty line, "n" and "yes"
    among them) makes scrape a cancellation: it returns, the database is
    unchanged, the connection is closed, "Operation cancelled." is
    printed, and nothing is written or downloaded. *)
Theorem C4_other_responses_cancel
    (u : str) (w : World) (r : str) (rest : list str) :
  0 < count_where_url u (notes_of (disk w)) ->
  stdin w = r :: rest ->
  normalize unicode_lower r <> lit "y"
  \/ r = lit "" \/ r = lit "n" \/ r = lit "yes" ->
  cancels (scrape unicode_lower u) w.
Proof.
  intros Hc Hi Hr.
  apply declined_cancels with (r := r) (rest := rest); try assumption.
  destruct Hr as [Hn | [-> | [-> | ->]]]; [assumption | | |];
    apply eqb_neq; reflexivity.
Qed.

(** C5.  At most one Note per url is an invariant: the initializer and
    scrape, on every path, leave a database with distinct urls when they
    start from one.  A write replaces: whenever a run executes the
    INSERT OR REPLACE of [(u, c)] (as it does when a Note exists, the
    overwrite is confirmed and the extractor returns [c]) the url has
    afterwards the one row [(u, c)] and no other, so nothing of the prior
    content is kept; the rows of the other urls are as before; and the
    table has as many rows as before when the url was present.  A run
    without a write leaves the table as it was. *)
Theorem C5_one_note_per_url (u : str) (w : World) :
  store_ok (disk w) ->
  let run := scrape unicode_lower u in
  let rows := notes_of (disk w) in
  let rows' := notes_of (disk (snd (run w))) in
  store_ok (disk (snd (setup_database w))) /\
  store_ok (disk (snd (run w))) /\
  (forall h c,
     In (InsertOrReplace h u c) (events_of run w) ->
     notes_for u rows' = [mkNote u c] /\
     count_where_url u rows' = 1 /\
     (forall old, In (mkNote u old) rows' -> old = c) /\
     (forall u', u' <> u -> notes_for u' rows' = notes_for u' rows) /\
     (0 < count_where_url u rows -> List.length rows' = List.length rows)) /\
  (forall r rest c,
     0 < count_where_url u rows ->
     stdin w = r :: rest ->
     normalize unicode_lower r = lit "y" ->
     web w u = inr c ->
     In (InsertOrReplace (List.length (conns w)) u c) (events_of run w)) /\
  (existsb is_write (events_of run w) = false -> rows' = rows).
Proof.
  unfold store_ok. intros Hok. cbv zeta.
  assert (Hw : forall c,
    NoDup (map url (insert_or_replace u c (notes_of (disk w)))) /\
    notes_for u (insert_or_replace u c (notes_of (disk w))) = [mkNote u c] /\
    count_where_url u (insert_or_replace u c (notes_of (disk w))) = 1 /\
    (forall old,
       In (mkNote u old) (insert_or_replace u c (notes_of (disk w))) ->
       old = c) /\
    (forall u', u' <> u ->
       notes_for u' (insert_or_replace u c (notes_of (disk w)))
       = notes_for u' (notes_of (disk w))) /\
    (0 < count_where_url u (notes_of (disk w)) ->
     List.length (insert_or_replace u c (notes_of (disk w)))
     = List.length (notes_of (disk w)))).
  { intros c.
    pose proof (notes_for_written u c (notes_of (disk w))) as Hn.
    split; [now apply insert_or_replace_keys|].
    split; [exact Hn|].
    split; [unfold count_where_url;
            fold (notes_for u (insert_or_replace u c (notes_of (disk w))));
            now rewrite Hn|].
    split.
    - intros old Hin.
      assert (Hf : In (mkNote u old)
                      (notes_for u (insert_or_replace u c (notes_of (disk w))))).
      { unfold notes_for. apply filter_In. split; [exact Hin|].
        apply url_is_true. reflexivity. }
      rewrite Hn in Hf. destruct Hf as [Hf | []]. now inversion Hf.
    - split.
      + intros u' Hne. now apply notes_for_other.
      + now apply insert_or_replace_length. }
  rewrite setup_database_run. cbv zeta. cbn [snd disk notes_of notes_table].
  split; [assumption|].
  unfold events_of.
  by_path u w; try destruct (web w u) as [e | c0] eqn:Hweb;
    cbn [fst snd disk trace notes_of notes_table];
    rewrite skipn_length_app;
    (split; [solve [assumption | apply Hw] |]);
    (split; [intros h c Hin; cbn in Hin;
             repeat (destruct Hin as [Hin | Hin]; [try discriminate|]);
             try contradiction; inversion Hin; subst; apply Hw |]);
    (split; [intros r' rest' c Hpos' Hi' Hn' Hweb';
             try lia; try discriminate; try congruence;
             inversion Hi'; subst; try contradiction;
             inversion Hweb'; subst;
             cbn; do 7 right; left; reflexivity |]);
    intros Hnw; try reflexivity; cbn in Hnw; discriminate.
Qed.

(** C6.  Scraping a stored url with the overwrite confirmed, then scraping
    it again in a world with the database the first run left, the same
    answer of the extractor and the overwrite confirmed again, returns and
    leaves the database of the first run, with [(u, c)] as the only row of
    the url. *)
Theorem C6_scrape_twice_same_store
    (u c : str) (w : World) (r1 : str) (rest1 : list str)
    (w2 : World) (r2 : str) (rest2 : list str) :
  0 < count_where_url u (notes_of (disk w)) ->
  stdin w = r1 :: rest1 ->
  normalize unicode_lower r1 = lit "y" ->
  web w u = inr c ->
  disk w2 = disk (snd (scrape unicode_lower u w)) ->
  web w2 u = inr c ->
  stdin w2 = r2 :: rest2 ->
  normalize unicode_lower r2 = lit "y" ->
  fst (scrape unicode_lower u w) = inr tt /\
  fst (scrape unicode_lower u w2) = inr tt /\
  disk (snd (scrape unicode_lower u w2))
    = disk (snd (scrape unicode_lower u w)) /\
  notes_for u (notes_of (disk (snd (scrape unicode_lower u w2))))
    = [mkNote u c].
Proof.
  intros Hc Hi Hn Hweb Hd2 Hweb2 Hi2 Hn2.
  rewrite (scrape_confirmed u w r1 rest1 Hc Hi Hn), Hweb in *.
  cbn [fst snd disk] in *.
  assert (Hc2 : 0 < count_where_url u (notes_of (disk w2))).
  { rewrite Hd2. cbn [notes_of notes_table]. unfold count_where_url.
    fold (notes_for u (insert_or_replace u c (notes_of (disk w)))).
    rewrite notes_for_written. simpl. lia. }
  rewrite (scrape_confirmed u w2 r2 rest2 Hc2 Hi2 Hn2), Hweb2.
  cbn [fst snd disk]. rewrite Hd2. cbn [notes_of notes_table].
  rewrite insert_or_replace_twice.
  repeat split. apply notes_for_written.
Qed.

(** C7.  The initializer always returns, handing out the next connection;
    it leaves a database with the table: an empty one where directory,
    file or table was missing, the table that was there otherwise; and
    running it again on the result changes nothing on disk. *)
Theorem C7_setup_database_idempotent (w : World) :
  let w1 := snd (setup_database w) in
  let h := List.length (conns w) in
  fst (setup_database w) = inr (h, h) /\
  disk w1 = match disk w with
            | Notes rows => Notes rows
            | _ => Notes []
            end /\
  notes_of (disk w1) = notes_of (disk w) /\
  fst (setup_database w1) = inr (S h, S h) /\
  disk (snd (setup_database w1)) = disk w1.
Proof.
  cbv zeta. rewrite !setup_database_run. cbv zeta.
  cbn [fst snd disk conns notes_of notes_table].
  rewrite length_app, Nat.add_comm. cbn [List.length Nat.add].
  destruct (disk w); repeat split.
Qed.

(** C8 (amended).  Whenever scrape returns (after a save or after a
    cancellation), the connection the initializer opened for it, open
    until then, has been closed by a [close] of this run. *)
Theorem C8_returns_with_connection_closed
    (u : str) (w : World) (conn cursor : handle) (w1 : World) :
  setup_database w = (inr (conn, cursor), w1) ->
  fst (scrape unicode_lower u w) = inr tt ->
  conn = List.length (conns w) /\
  is_closed conn w1 = false /\
  closes_its_connection (scrape unicode_lower u) w /\
  In (Close conn) (events_of (scrape unicode_lower u) w).
Proof.
  rewrite setup_database_run. cbv zeta. intros E. inversion E; subst.
  clear E. unfold closes_its_connection, events_of, is_closed.
  cbn [conns]. rewrite nth_error_snoc.
  by_path u w; try destruct (web w u) as [e | c] eqn:Hweb;
    cbn [fst snd conns trace]; try discriminate; intros _;
    rewrite nth_error_snoc, skipn_length_app;
    repeat split; cbn; tauto.
Qed.

(** C9.  Scraping [u] leaves, on every path, the rows of every other url
    as they were. *)
Theorem C9_other_urls_untouched (u u' : str) (w : World) :
  u' <> u ->
  notes_for u' (notes_of (disk (snd (scrape unicode_lower u w))))
  = notes_for u' (notes_of (disk w)).
Proof.
  intros Hne.
  by_path u w; try destruct (web w u) as [e | c] eqn:Hweb;
    cbn [snd disk notes_of notes_table];
    try reflexivity; now apply notes_for_other.
Qed.

(** C10.  On the declined path (a Note exists, the normalized line is not
    "y") the effects of scrape are those of the initializer and the
    existence query, then the prompt, the cancellation message and the
    close: no download among them; and the world it leaves differs from
    the one it started in by the closed connection, the line read and
    these effects only. *)
Theorem C10_declined_path_no_download
    (u : str) (w : World) (r : str) (rest : list str) :
  0 < count_where_url u (notes_of (disk w)) ->
  stdin w = r :: rest ->
  normalize unicode_lower r <> lit "y" ->
  let run := scrape unicode_lower u in
  let h := List.length (conns w) in
  events_of run w
    = [Makedirs; Connect h; CreateTable h; Commit h; SelectCount h u;
       Input overwrite_prompt; Print (lit "Operation cancelled."); Close h] /\
  existsb is_download (events_of run w) = false /\
  run w = (inr tt,
           mkWorld (disk w) (conns w ++ [mkConnection true None]) rest
                   (web w) (trace w ++ events_of run w)).
Proof.
  intros Hc Hi Hn run h.
  pose proof (scrape_declined u w r rest Hc Hi Hn) as E. cbv zeta in E.
  fold run h in E.
  assert (Ev : events_of run w = check_events h u ++ cancel_events h).
  { apply events_of_app. now rewrite E. }
  rewrite Ev, E. rewrite <- (stored_on_disk u (disk w) Hc).
  repeat split.
Qed.

(** ** Further properties of [scrape] and [setup_database] *)

Ltac events_by_path u w :=
  unfold events_of; by_path u w;
  try destruct (web w u) as [?e | ?c] eqn:?Hweb;
  cbn [fst snd trace disk conns stdin web];
  rewrite ?skipn_length_app.

(** X1.  When a Note exists and standard input is at its end, scrape
    shows the prompt and raises [EOFError]: nothing is downloaded,
    written or printed, the database is as it was, and the connection
    stays open. *)
Theorem X1_end_of_input_at_prompt (u : str) (w : World) :
  0 < count_where_url u (notes_of (disk w)) ->
  stdin w = [] ->
  let run := scrape unicode_lower u in
  fst (run w) = inl EOFError /\
  disk (snd (run w)) = disk w /\
  prompts (events_of run w) = [overwrite_prompt] /\
  downloads (events_of run w) = [] /\
  existsb is_write (events_of run w) = false /\
  printed (events_of run w) = [] /\
  is_closed (List.length (conns w)) (snd (run w)) = false.
Proof.
  intros Hc Hi run. unfold run, events_of, is_closed.
  rewrite (scrape_eof u w Hc Hi).
  cbn [fst snd trace disk conns].
  rewrite skipn_length_app, nth_error_snoc.
  rewrite <- (stored_on_disk u (disk w) Hc).
  repeat split.
Qed.

(** X2.  The prompt is shown exactly when a Note for the url exists, and
    then once; scrape takes one line from standard input in that case
    and none otherwise. *)
Theorem X2_prompt_only_when_stored (u : str) (w : World) :
  let run := scrape unicode_lower u in
  prompts (events_of run w)
    = (if 0 <? count_where_url u (notes_of (disk w))
       then [overwrite_prompt] else []) /\
  stdin (snd (run w))
    = (if 0 <? count_where_url u (notes_of (disk w))
       then tl (stdin w) else stdin w).
Proof.
  cbv zeta. events_by_path u w;
    try (rewrite Hz; cbn [Nat.ltb Nat.leb]);
    try (apply Nat.ltb_lt in Hpos; rewrite Hpos);
    split; reflexivity.
Qed.

(** X3.  The extractor is called at most once and only for the url
    given: once when no Note exists or the line read normalizes to "y",
    not at all in the other cases. *)
Theorem X3_downloads_only_the_url (u : str) (w : World) :
  downloads (events_of (scrape unicode_lower u) w)
  = if (count_where_url u (notes_of (disk w)) =? 0)
       || match stdin w with
          | r :: _ => eqb (normalize unicode_lower r) (lit "y")
          | [] => false
          end
    then [u] else [].
Proof.
  events_by_path u w;
    try (rewrite Hz); try (apply eqb_eq in Hn; rewrite Hn);
    try (apply eqb_neq in Hn; rewrite Hn);
    try (destruct (count_where_url u (notes_of (disk w))); [lia|]);
    reflexivity.
Qed.

(** X4.  Every write of a run is committed: if scrape executes an
    INSERT OR REPLACE, it is on the connection of this run, for the url
    given and the text the extractor returned; the run returns, prints
    the success message, and the row is in the database on disk. *)
Theorem X4_writes_are_committed
    (u : str) (w : World) (h' : handle) (u' c' : str) :
  In (InsertOrReplace h' u' c') (events_of (scrape unicode_lower u) w) ->
  let w' := snd (scrape unicode_lower u w) in
  h' = List.length (conns w) /\ u' = u /\
  web w u = inr c' /\
  fst (scrape unicode_lower u w) = inr tt /\
  disk w' = Notes (insert_or_replace u c' (notes_of (disk w))) /\
  notes_for u (notes_of (disk w')) = [mkNote u c'] /\
  printed (events_of (scrape unicode_lower u) w)
    = [lit "Content saved successfully."].
Proof.
  cbv zeta. events_by_path u w; cbn [In app check_events save_events
    cancel_events]; intros H;
    repeat (destruct H as [H | H]; [try discriminate|]); try contradiction;
    inversion H; subst; cbn [notes_of notes_table];
    rewrite notes_for_written; repeat split.
Qed.


(** X7.  What a run prints is decided by how it ends: nothing when it
    raises, the success message alone when it wrote, the cancellation
    message alone when it returned without a write. *)
Theorem X7_one_message_per_return (u : str) (w : World) :
  let run := scrape unicode_lower u in
  printed (events_of run w)
  = match fst (run w) with
    | inl _ => []
    | inr _ =>
        if existsb is_write (events_of run w)
        then [lit "Content saved successfully."]
        else [lit "Operation cancelled."]
    end.
Proof.
  cbv zeta. events_by_path u w; reflexivity.
Qed.

(** X11.  Scrape never deletes a Note: a url that has a row before a run
    has one after it, whichever url is scraped and however the run
    ends. *)
Theorem X11_no_note_is_lost (u u' : str) (w : World) :
  0 < count_where_url u' (notes_of (disk w)) ->
  0 < count_where_url u' (notes_of (disk (snd (scrape unicode_lower u w)))).
Proof.
  intros Hc.
  assert (Hw : forall c,
    0 < count_where_url u' (insert_or_replace u c (notes_of (disk w)))).
  { intros c. unfold count_where_url.
    fold (notes_for u' (insert_or_replace u c (notes_of (disk w)))).
    destruct (eqb u' u) eqn:E.
    - apply eqb_eq in E. subst u'. rewrite notes_for_written. simpl. lia.
    - apply eqb_neq in E. rewrite (notes_for_other u u' c _ E). exact Hc. }
  by_path u w; try destruct (web w u) as [e | c0] eqn:Hweb;
    cbn [snd disk notes_of notes_table]; solve [exact Hc | apply Hw].
Qed.

(** ** Which lines confirm the overwrite *)

Lemma isspace_not_upper (c : N) :
  (65 <= c <= 122)%N -> isspace c = false.
Proof.
  intros H. unfold isspace.
  repeat match goal with
  | |- context [(?a <=? ?b)%N] =>
      destruct (N.leb_spec a b); try lia; cbn [andb orb]
  | |- context [(?a =? ?b)%N] =>
      destruct (N.eqb_spec a b); try lia; cbn [andb orb]
  end; reflexivity.
Qed.

(** Lower-casing a byte does not change whether it is white space. *)
Lemma isspace_tolower (c : N) : isspace (ascii_tolower c) = isspace c.
Proof.
  unfold ascii_tolower.
  destruct ((65 <=? c) && (c <=? 90))%N eqn:E; [|reflexivity].
  apply andb_true_iff in E. destruct E as [E1 E2].
  apply N.leb_le in E1, E2.
  rewrite !isspace_not_upper by lia. reflexivity.
Qed.

Lemma lstrip_map_tolower (s : str) :
  lstrip (map ascii_tolower s) = map ascii_tolower (lstrip s).
Proof.
  induction s as [|c s IH]; simpl; [reflexivity|].
  rewrite isspace_tolower. destruct (isspace c); [assumption | reflexivity].
Qed.

Lemma strip_map_tolower (s : str) :
  strip (map ascii_tolower s) = map ascii_tolower (strip s).
Proof.
  unfold strip, rstrip.
  now rewrite lstrip_map_tolower, <- map_rev, lstrip_map_tolower, map_rev.
Qed.

Lemma lstrip_spaces_app (p t : str) :
  forallb isspace p = true -> lstrip (p ++ t) = lstrip t.
Proof.
  induction p as [|c p IH]; simpl; [reflexivity|].
  intros H. apply andb_true_iff in H. destruct H as [Hc Hp].
  rewrite Hc. now apply IH.
Qed.

(** What [lstrip] removes is white space, and what it leaves does not
    start with white space. *)
Lemma lstrip_split (s : str) :
  exists p, s = p ++ lstrip s /\ forallb isspace p = true /\
            match lstrip s with
            | c :: _ => isspace c = false
            | [] => True
            end.
Proof.
  induction s as [|c s (p & Hs & Hp & Hh)]; simpl.
  - exists []. repeat split.
  - destruct (isspace c) eqn:E.
    + exists (c :: p). simpl. rewrite E, Hp. repeat split; [|assumption].
      now f_equal.
    + exists []. simpl. repeat split. assumption.
Qed.

Lemma forallb_rev_eq {A} (f : A -> bool) (l : list A) :
  forallb f (rev l) = forallb f l.
Proof.
  induction l as [|x l IH]; simpl; [reflexivity|].
  rewrite forallb_app, IH. simpl. rewrite andb_true_r. apply andb_comm.
Qed.

(** [strip] leaves the single code point [c] exactly on the strings made
    of [c], not white space, between two runs of white space. *)
Lemma strip_single (s : str) (c : N) :
  strip s = [c] <->
  exists pre post,
    s = pre ++ c :: post /\ forallb isspace pre = true /\
    forallb isspace post = true /\ isspace c = false.
Proof.
  unfold strip, rstrip. split.
  - intros H.
    destruct (lstrip_split s) as (pre & Hs & Hpre & _).
    assert (H' : lstrip (rev (lstrip s)) = [c]).
    { rewrite <- (rev_involutive (lstrip (rev (lstrip s)))), H.
      reflexivity. }
    destruct (lstrip_split (rev (lstrip s))) as (q & Hq & Hsp & Hh).
    rewrite H' in Hq, Hh.
    assert (Ht : lstrip s = c :: rev q).
    { rewrite <- (rev_involutive (lstrip s)), Hq, rev_app_distr.
      reflexivity. }
    exists pre, (rev q). rewrite <- Ht.
    repeat split; try assumption. now rewrite forallb_rev_eq.
  - intros (pre & post & -> & Hpre & Hpost & Hc).
    rewrite (lstrip_spaces_app pre (c :: post) Hpre).
    simpl lstrip at 2. rewrite Hc. simpl rev at 2.
    rewrite lstrip_spaces_app by now rewrite forallb_rev_eq.
    simpl. now rewrite Hc.
Qed.

Lemma tolower_is_y (c : N) :
  ascii_tolower c = 121%N <-> c = 121%N \/ c = 89%N.
Proof.
  unfold ascii_tolower.
  destruct (N.leb_spec 65 c); destruct (N.leb_spec c 90); cbn [andb];
    split; intros Hx; lia.
Qed.

(** X8.  For a line of ASCII characters, the overwrite is confirmed
    exactly when the line is one letter y, lower or upper case, with any
    amount of white space (blanks, tabs, the control characters 28 to 31
    and the like) before and after it. *)
Theorem X8_lines_that_confirm (r : str) :
  forallb is_ascii r = true ->
  (normalize unicode_lower r = lit "y" <->
   exists pre c post,
     r = pre ++ c :: post /\
     forallb isspace pre = true /\ forallb isspace post = true /\
     (c = 121%N \/ c = 89%N)).
Proof.
  intros Ha. unfold normalize, lower. rewrite Ha.
  rewrite strip_map_tolower.
  change (lit "y") with [121%N].
  split.
  - intros H.
    destruct (strip r) as [|c [|d t]] eqn:E; try discriminate.
    simpl in H. injection H as Hc.
    apply strip_single in E. destruct E as (pre & post & E & Hp & Hq & _).
    exists pre, c, post. repeat split; try assumption.
    now apply tolower_is_y.
  - intros (pre & c & post & E & Hp & Hq & Hc).
    assert (Hs : strip r = [c]).
    { apply strip_single. exists pre, post. repeat split; try assumption.
      destruct Hc as [-> | ->]; reflexivity. }
    rewrite Hs. simpl. f_equal. now apply tolower_is_y.
Qed.

(** X12.  Scraping two urls that have no Note, one after the other, with
    the extractor returning [c] and [c'], stores both: the table is the
    old one followed by the two new rows. *)
Theorem X12_two_fresh_urls (u u' c c' : str) (w w2 : World) :
  u' <> u ->
  count_where_url u (notes_of (disk w)) = 0 ->
  count_where_url u' (notes_of (disk w)) = 0 ->
  web w u = inr c ->
  disk w2 = disk (snd (scrape unicode_lower u w)) ->
  web w2 u' = inr c' ->
  fst (scrape unicode_lower u' w2) = inr tt /\
  disk (snd (scrape unicode_lower u' w2))
  = Notes (notes_of (disk w) ++ [mkNote u c; mkNote u' c']).
Proof.
  intros Hne Hz Hz' Hweb Hd Hweb2.
  rewrite (scrape_fresh u w Hz), Hweb in Hd. cbn [snd disk] in Hd.
  unfold insert_or_replace in Hd. rewrite absent_keeps_rows in Hd by assumption.
  assert (Hz2 : count_where_url u' (notes_of (disk w2)) = 0).
  { rewrite Hd. cbn [notes_of notes_table]. unfold count_where_url.
    rewrite filter_app, length_app. fold (count_where_url u' (notes_of (disk w))).
    rewrite Hz'. simpl.
    assert (E : url_is u' (mkNote u c) = false).
    { unfold url_is. simpl. apply eqb_neq. congruence. }
    now rewrite E. }
  rewrite (scrape_fresh u' w2 Hz2), Hweb2. cbn [fst snd disk].
  split; [reflexivity|].
  unfold insert_or_replace. rewrite absent_keeps_rows by assumption.
  rewrite Hd. cbn [notes_of notes_table]. now rewrite <- app_assoc.
Qed.

(** X13.  After a run that wrote, the url has exactly one row, whatever
    the table held before, and the next scrape of the url, in any world
    with that database, shows the prompt. *)
Theorem X13_written_url_prompts_next (u : str) (w w2 : World) :
  existsb is_write (events_of (scrape unicode_lower u) w) = true ->
  disk w2 = disk (snd (scrape unicode_lower u w)) ->
  count_where_url u (notes_of (disk w2)) = 1 /\
  prompts (events_of (scrape unicode_lower u) w2) = [overwrite_prompt].
Proof.
  intros Hw Hd.
  assert (Hc : count_where_url u (notes_of (disk w2)) = 1).
  { rewrite Hd. clear Hd. revert Hw.
    events_by_path u w; cbn [notes_of notes_table]; intros Hw;
      try discriminate; unfold count_where_url;
      fold (notes_for u (insert_or_replace u c (notes_of (disk w))));
      now rewrite notes_for_written. }
  split; [exact Hc|].
  assert (Hpos : 0 < count_where_url u (notes_of (disk w2))) by lia.
  clear Hw Hd Hc. unfold events_of.
  destruct (stdin w2) as [|r rest] eqn:Hi.
  - rewrite (scrape_eof u w2 Hpos Hi). cbn [snd trace].
    now rewrite skipn_length_app.
  - destruct (eqb (normalize unicode_lower r) (lit "y")) eqn:Hn.
    + apply eqb_eq in Hn. rewrite (scrape_confirmed u w2 r rest Hpos Hi Hn).
      destruct (web w2 u); cbn [snd trace]; now rewrite skipn_length_app.
    + apply eqb_neq in Hn. rewrite (scrape_declined u w2 r rest Hpos Hi Hn).
      cbn [snd trace]. now rewrite skipn_length_app.
Qed.

End Behaviour.

(** ** The properties on concrete runs *)

(** Scenario C: the url is stored, the user types "Y", the extractor
    returns "New text". *)
Lemma C1_overwrite_iff_confirmed_witness :
  let w := stored_world [lit "Y"] (inr (lit "New text")) in
  0 < count_where_url example_url (notes_of (disk w)) /\
  stdin w = [lit "Y"] /\
  notes_for example_url
    (notes_of (disk (snd (scrape no_case_mapping example_url w))))
  = [mkNote example_url (lit "New text")].
Proof.
  cbv zeta.
  assert (Hc : 0 < count_where_url example_url
                 (notes_of (disk (stored_world [lit "Y"]
                                    (inr (lit "New text"))))))
    by (vm_compute; lia).
  split; [exact Hc|]. split; [reflexivity|].
  destruct (C1_overwrite_iff_confirmed no_case_mapping example_url
              (stored_world [lit "Y"] (inr (lit "New text"))) (lit "Y") []
              Hc eq_refl) as (_ & _ & H & _ & _).
  destruct (H eq_refl (lit "New text") eq_refl) as (_ & _ & Hn).
  exact Hn.
Defined.

(** Scenario D: the url is stored, the user confirms, the download
    fails. *)
Lemma C2_failed_extraction_keeps_notes_witness :
  let w := stored_world [lit "y"] (inl fetch_error) in
  let run := scrape no_case_mapping example_url in
  web w example_url = inl fetch_error /\
  notes_of (disk (snd (run w))) = notes_of (disk w) /\
  notes_for example_url (notes_of (disk (snd (run w))))
    = notes_for example_url (notes_of (disk w)) /\
  disk (snd (run w)) = disk (snd (setup_database w)) /\
  existsb is_write (events_of run w) = false /\
  (existsb is_download (events_of run w) = true ->
   fst (run w) = inl fetch_error /\
   last (events_of run w) Makedirs = Download example_url).
Proof.
  cbv zeta. split; [reflexivity|].
  apply (C2_failed_extraction_keeps_notes no_case_mapping example_url
           (stored_world [lit "y"] (inl fetch_error)) fetch_error).
  reflexivity.
Defined.

(** Scenario A: a fresh machine, the extractor returns "Hello world". *)
Lemma C3_fresh_url_is_stored_witness :
  let w := fresh_world (inr (lit "Hello world")) in
  let run := scrape no_case_mapping example_url in
  count_where_url example_url (notes_of (disk w)) = 0 /\
  web w example_url = inr (lit "Hello world") /\
  fst (run w) = inr tt /\
  disk (snd (run w)) = Notes [mkNote example_url (lit "Hello world")] /\
  fst (existence_check example_url (snd (run w))) = inr true.
Proof.
  cbv zeta. split; [reflexivity|]. split; [reflexivity|].
  destruct (C3_fresh_url_is_stored no_case_mapping example_url
              (fresh_world (inr (lit "Hello world"))) (lit "Hello world")
              eq_refl eq_refl) as (Hr & Hd & _ & _ & _ & Hx).
  repeat split; assumption.
Defined.

(** Scenario B: the url is stored and the user types "n". *)
Lemma C4_other_responses_cancel_witness :
  let w := stored_world [lit "n"] (inr (lit "New text")) in
  0 < count_where_url example_url (notes_of (disk w)) /\
  stdin w = [lit "n"] /\
  normalize no_case_mapping (lit "n") <> lit "y" /\
  cancels (scrape no_case_mapping example_url) w.
Proof.
  cbv zeta.
  split; [vm_compute; lia|]. split; [reflexivity|].
  split; [intros H; vm_compute in H; discriminate|].
  apply (C4_other_responses_cancel no_case_mapping example_url
           (stored_world [lit "n"] (inr (lit "New text"))) (lit "n") []);
    [vm_compute; lia | reflexivity |].
  left. intros H; vm_compute in H; discriminate.
Defined.

(** C4 as stated fails on "Y " (an uppercase Y and a space): the line
    is not "y", yet scrape does not cancel; it replaces the stored
    text. *)
Lemma C4_counterexample :
  let w := stored_world [lit "Y "] (inr (lit "New text")) in
  lit "Y " <> lit "y" /\
  0 < count_where_url example_url (notes_of (disk w)) /\
  ~ cancels (scrape no_case_mapping example_url) w /\
  notes_for example_url
    (notes_of (disk (snd (scrape no_case_mapping example_url w))))
  = [mkNote example_url (lit "New text")].
Proof.
  cbv zeta. split; [discriminate|]. split; [vm_compute; lia|].
  split; [|reflexivity].
  intros (_ & Hd & _). vm_compute in Hd. discriminate.
Qed.

Lemma C5_one_note_per_url_witness :
  let w := stored_world [lit "y"] (inr (lit "New text")) in
  let rows' := notes_of (disk (snd (scrape no_case_mapping example_url w))) in
  store_ok (disk w) /\
  store_ok (disk (snd (scrape no_case_mapping example_url w))) /\
  notes_for example_url rows' = [mkNote example_url (lit "New text")] /\
  (forall old, In (mkNote example_url old) rows' -> old = lit "New text") /\
  List.length rows' = List.length (notes_of (disk w)).
Proof.
  cbv zeta.
  assert (H : store_ok (disk (stored_world [lit "y"] (inr (lit "New text"))))).
  { unfold store_ok. cbn.
    constructor; [cbn; intros [H | []]; discriminate|].
    constructor; [cbn; tauto | constructor]. }
  assert (Hc : 0 < count_where_url example_url
                 (notes_of (disk (stored_world [lit "y"]
                                    (inr (lit "New text"))))))
    by (vm_compute; lia).
  split; [exact H|].
  destruct (C5_one_note_per_url no_case_mapping example_url
              (stored_world [lit "y"] (inr (lit "New text"))) H)
    as (_ & Hok & Hw & Hconf & _).
  split; [exact Hok|].
  destruct (Hw _ _ (Hconf (lit "y") [] (lit "New text") Hc
                      eq_refl eq_refl eq_refl))
    as (Hn & _ & Hold & _ & Hlen).
  split; [exact Hn|]. split; [exact Hold | exact (Hlen Hc)].
Defined.

Lemma C6_scrape_twice_same_store_witness :
  let w := stored_world [lit "y"; lit " Y"] (inr (lit "New text")) in
  let w1 := snd (scrape no_case_mapping example_url w) in
  normalize no_case_mapping (lit "y") = lit "y" /\
  normalize no_case_mapping (lit " Y") = lit "y" /\
  stdin w1 = [lit " Y"] /\
  disk (snd (scrape no_case_mapping example_url w1)) = disk w1.
Proof.
  cbv zeta. split; [reflexivity|]. split; [reflexivity|].
  split; [reflexivity|].
  apply (C6_scrape_twice_same_store no_case_mapping
           example_url (lit "New text")
           (stored_world [lit "y"; lit " Y"] (inr (lit "New text")))
           (lit "y") [lit " Y"]
           (snd (scrape no_case_mapping example_url
                   (stored_world [lit "y"; lit " Y"] (inr (lit "New text")))))
           (lit " Y") []);
    solve [vm_compute; lia | reflexivity].
Defined.

Lemma C8_returns_with_connection_closed_witness :
  let w := fresh_world (inr (lit "Hello world")) in
  setup_database w = (inr (0, 0), snd (setup_database w)) /\
  fst (scrape no_case_mapping example_url w) = inr tt /\
  closes_its_connection (scrape no_case_mapping example_url) w.
Proof.
  cbv zeta. split; [reflexivity|]. split; [reflexivity|].
  destruct (C8_returns_with_connection_closed no_case_mapping example_url
              (fresh_world (inr (lit "Hello world"))) 0 0
              (snd (setup_database (fresh_world (inr (lit "Hello world")))))
              eq_refl eq_refl) as (_ & _ & H & _).
  exact H.
Defined.

(** C8 as stated fails when the extractor raises: scrape ends with the
    exception, the connection it opened is still open, and the run
    contains no [close]. *)
Lemma C8_counterexample :
  let w := fresh_world (inl fetch_error) in
  let run := scrape no_case_mapping example_url in
  fst (setup_database w) = inr (0, 0) /\
  fst (run w) = inl fetch_error /\
  ~ closes_its_connection run w /\
  is_closed 0 (snd (run w)) = false /\
  ~ In (Close 0) (events_of run w).
Proof.
  cbv zeta. split; [reflexivity|]. split; [reflexivity|].
  split; [intros H; vm_compute in H; discriminate|].
  split; [reflexivity|].
  vm_compute. intros H.
  repeat (destruct H as [H | H]; [discriminate|]). exact H.
Qed.

Lemma C9_other_urls_untouched_witness :
  let w := stored_world [lit "y"] (inr (lit "New text")) in
  other_url <> example_url /\
  notes_for other_url
    (notes_of (disk (snd (scrape no_case_mapping example_url w))))
  = [mkNote other_url (lit "Other text")].
Proof.
  cbv zeta.
  assert (H : other_url <> example_url) by (vm_compute; discriminate).
  split; [exact H|].
  rewrite (C9_other_urls_untouched no_case_mapping example_url other_url
             (stored_world [lit "y"] (inr (lit "New text"))) H).
  reflexivity.
Defined.

Lemma C10_declined_path_no_download_witness :
  let w := stored_world [lit "yes"] (inr (lit "New text")) in
  let run := scrape no_case_mapping example_url in
  0 < count_where_url example_url (notes_of (disk w)) /\
  stdin w = [lit "yes"] /\
  normalize no_case_mapping (lit "yes") <> lit "y" /\
  existsb is_download (events_of run w) = false.
Proof.
  cbv zeta.
  split; [vm_compute; lia|]. split; [reflexivity|].
  split; [intros H; vm_compute in H; discriminate|].
  apply (C10_declined_path_no_download no_case_mapping example_url
           (stored_world [lit "yes"] (inr (lit "New text"))) (lit "yes") []);
    [vm_compute; lia | reflexivity |].
  intros H; vm_compute in H; discriminate.
Defined.

(** ** The further properties on concrete runs *)

Lemma X1_end_of_input_at_prompt_witness :
  let w := stored_world [] (inr (lit "New text")) in
  0 < count_where_url example_url (notes_of (disk w)) /\
  stdin w = [] /\
  fst (scrape no_case_mapping example_url w) = inl EOFError /\
  disk (snd (scrape no_case_mapping example_url w)) = disk w.
Proof.
  cbv zeta.
  assert (Hc : 0 < count_where_url example_url
                 (notes_of (disk (stored_world [] (inr (lit "New text"))))))
    by (vm_compute; lia).
  split; [exact Hc|]. split; [reflexivity|].
  destruct (X1_end_of_input_at_prompt no_case_mapping example_url
              (stored_world [] (inr (lit "New text"))) Hc eq_refl)
    as (H1 & H2 & _).
  split; [exact H1 | exact H2].
Defined.

Lemma X4_writes_are_committed_witness :
  let w := fresh_world (inr (lit "Hello world")) in
  In (InsertOrReplace 0 example_url (lit "Hello world"))
     (events_of (scrape no_case_mapping example_url) w) /\
  disk (snd (scrape no_case_mapping example_url w))
  = Notes (insert_or_replace example_url (lit "Hello world")
             (notes_of (disk w))).
Proof.
  cbv zeta.
  assert (Hin : In (InsertOrReplace 0 example_url (lit "Hello world"))
                   (events_of (scrape no_case_mapping example_url)
                      (fresh_world (inr (lit "Hello world"))))).
  { vm_compute. do 6 right. left. reflexivity. }
  split; [exact Hin|].
  destruct (X4_writes_are_committed no_case_mapping example_url
              (fresh_world (inr (lit "Hello world"))) 0 example_url
              (lit "Hello world") Hin) as (_ & _ & _ & _ & H & _).
  exact H.
Defined.

(** A blank, an uppercase Y and a tab. *)
Lemma X8_lines_that_confirm_witness :
  forallb is_ascii [32; 89; 9]%N = true /\
  normalize no_case_mapping [32; 89; 9]%N = lit "y".
Proof.
  split; [reflexivity|].
  apply (proj2 (X8_lines_that_confirm no_case_mapping [32; 89; 9]%N
                  eq_refl)).
  exists [32%N], 89%N, [9%N]. repeat split. now right.
Defined.

Lemma X11_no_note_is_lost_witness :
  let w := stored_world [lit "y"] (inr (lit "New text")) in
  0 < count_where_url other_url (notes_of (disk w)) /\
  0 < count_where_url other_url
        (notes_of (disk (snd (scrape no_case_mapping example_url w)))).
Proof.
  cbv zeta.
  assert (Hc : 0 < count_where_url other_url
                 (notes_of (disk (stored_world [lit "y"]
                                    (inr (lit "New text"))))))
    by (vm_compute; lia).
  split; [exact Hc|].
  exact (X11_no_note_is_lost no_case_mapping example_url other_url
           (stored_world [lit "y"] (inr (lit "New text"))) Hc).
Defined.

Lemma X12_two_fresh_urls_witness :
  let w := fresh_world (inr (lit "Hello world")) in
  let w2 := snd (scrape no_case_mapping example_url w) in
  other_url <> example_url /\
  count_where_url example_url (notes_of (disk w)) = 0 /\
  count_where_url other_url (notes_of (disk w)) = 0 /\
  disk (snd (scrape no_case_mapping other_url w2))
  = Notes [mkNote example_url (lit "Hello world");
           mkNote other_url (lit "Hello world")].
Proof.
  cbv zeta.
  assert (Hne : other_url <> example_url) by (vm_compute; discriminate).
  split; [exact Hne|]. split; [reflexivity|]. split; [reflexivity|].
  destruct (X12_two_fresh_urls no_case_mapping example_url other_url
              (lit "Hello world") (lit "Hello world")
              (fresh_world (inr (lit "Hello world")))
              (snd (scrape no_case_mapping example_url
                      (fresh_world (inr (lit "Hello world")))))
              Hne eq_refl eq_refl eq_refl eq_refl eq_refl) as (_ & H).
  exact H.
Defined.

Lemma X13_written_url_prompts_next_witness :
  let w := fresh_world (inr (lit "Hello world")) in
  let w2 := snd (scrape no_case_mapping example_url w) in
  existsb is_write (events_of (scrape no_case_mapping example_url) w) = true /\
  prompts (events_of (scrape no_case_mapping example_url) w2)
  = [overwrite_prompt].
Proof.
  cbv zeta. split; [reflexivity|].
  destruct (X13_written_url_prompts_next no_case_mapping example_url
              (fresh_world (inr (lit "Hello world")))
              (snd (scrape no_case_mapping example_url
                      (fresh_world (inr (lit "Hello world")))))
              eq_refl eq_refl) as (_ & H).
  exact H.
Defined.
